(** * gin-conditional: HTTP/1.1 conditional requests (RFC 7232)

    A shallow embedding of [conditional.go] and the properties of its
    precedence algorithm.  The Go packages the file imports ([time],
    [net/http], [gin]) are modelled only as far as [conditional.go] uses
    them; the date parser [time.Parse] is a parameter of the development. *)

From Stdlib Require Import ZArith String Bool.
From stdpp Require Import base option strings gmap.

Local Open Scope Z_scope.
Local Open Scope string_scope.

(** ** The imported packages, as far as the source uses them *)

Module time.
(** An instant, in nanoseconds since the Unix epoch.  Parsed dates carry
    no monotonic reading, so [Before] and [After] compare instants. *)
Definition Time : Type := Z.

Definition Before (t u : Time) : bool := Z.ltb t u.
Definition After (t u : Time) : bool := Z.ltb u t.
End time.

Module http.
Definition TimeFormat : string := "Mon, 02 Jan 2006 15:04:05 GMT".

Definition StatusNotModified : Z := 304.
Definition StatusPreconditionFailed : Z := 412.

(** [http.Header] is [map[string][]string]; [Get] returns the first value
    stored under the key, and the empty string when there is none.  The
    keys used by the source are already in canonical form. *)
Abbreviation Header := (gmap string (list string)).

Definition Get (h : Header) (key : string) : string :=
  match h !! key with
  | Some (v :: _) => v
  | _ => ""
  end.

Record Request : Type := mkRequest {
  Method : string;
  Header_ : Header
}.
End http.

Module gin.
(** The part of [gin.Context] that [Conditional] reads and writes: the
    request, the response status and the abort flag. *)
Record Context : Type := mkContext {
  Request : http.Request;
  Status : Z;
  IsAborted : bool
}.

Definition AbortWithStatus (code : Z) (c : Context) : Context :=
  {| Request := Request c; Status := code; IsAborted := true |}.
End gin.

(** ** conditional.go *)

(** HTTP headers for conditional requests *)
Definition IfModifiedSince : string := "If-Modified-Since".
Definition IfUnmodifiedSince : string := "If-Unmodified-Since".
Definition IfMatch : string := "If-Match".
Definition IfNoneMatch : string := "If-None-Match".
Definition IfRange : string := "If-Range".

(** HTTP methods that are checked for *)
Definition Get : string := "GET".
Definition Head : string := "HEAD".

Definition Range : string := "Range".

(** Go's [error] values: the three package-level errors, compared by
    identity in the source, and any other error a resource may return.
    [nil] is [None] of [option error]. *)
Inductive error : Type :=
| ErrNoResource
| ErrWasModified
| ErrRangeMismatch
| ErrOther (msg : string).

#[global] Instance error_eq_dec : EqDecision error.
Proof. solve_decision. Defined.

(** [type Etagger interface { Etag() (string, error) }]: a snapshot of what
    the method returns.  Go lets it return a string together with an error. *)
Record Etagger : Type := mkEtagger {
  Etag : string * option error
}.

(** [type LastModifier interface { LastModified() time.Time }] *)
Record LastModifier : Type := mkLastModifier {
  LastModified : time.Time
}.

(** [resource interface{}]: the two type assertions at the head of
    [Conditional] either succeed or yield a nil interface. *)
Record Resource : Type := mkResource {
  asEtagger : option Etagger;
  asLastModifier : option LastModifier
}.

(** What [Conditional] hands back: the context after the call and the pair
    [(bool, error)]. *)
Definition Result : Type := gin.Context * (bool * option error).

(** [canCheck && header != ""], yielding the asserted interface when the
    guard is true. *)
Definition applicable {A : Type} (iface : option A) (header : string) : option A :=
  match iface with
  | Some x => if String.eqb header "" then None else Some x
  | None => None
  end.

(** Implements the Section 3.1 from RFC7232 *)
Definition handleIfMatch (resource : Etagger) (clientEtag : string) : bool :=
  let '(serverEtag, err) := Etag resource in
  if bool_decide (err ≠ None) && bool_decide (err ≠ Some ErrNoResource) then false
  else if String.eqb clientEtag "*" && bool_decide (err = Some ErrNoResource) then false
  else if String.eqb serverEtag clientEtag || String.eqb clientEtag "*" then true
  else false.

(** Implements the Section 3.2 from RFC7232 *)
Definition handleIfNoneMatch (resource : Etagger) (clientEtag : string) : bool :=
  let '(serverEtag, err) := Etag resource in
  if bool_decide (err ≠ None) then
    if String.eqb clientEtag "*" && bool_decide (err = Some ErrNoResource) then true
    else false
  else if String.eqb clientEtag serverEtag then false
  else true.

(** [handleIfRange] ignores both arguments; it is also called with a nil
    [Etagger]. *)
Definition handleIfRange (resource : option Etagger) (clientEtag : string) : bool :=
  false.

Section Conditional.

(** [time.Parse layout value]: [None] is a parse error. *)
Variable time_Parse : string -> string -> option time.Time.

(** Implements the Section 3.4 from RFC7232 *)
Definition handleIfUnmodifiedSince (resource : LastModifier) (date : string) : bool :=
  match time_Parse http.TimeFormat date with
  | None => false
  | Some clientDate =>
      let serverDate := LastModified resource in
      if time.Before clientDate serverDate then true
      else false
  end.

(** Implements the Section 3.3 from RFC7232.  [now] is the reading of
    [time.Now()]. *)
Definition handleIfModifiedSince (now : time.Time) (resource : LastModifier)
    (date : string) : bool :=
  match time_Parse http.TimeFormat date with
  | None => false
  | Some clientDate =>
      let serverDate := LastModified resource in
      if time.After clientDate now || time.Before clientDate serverDate then false
      else true
  end.

(** The three [if] chains of [Conditional].  Each one yields [Some] of
    what the function returns from inside it, or [None] when control
    falls through to the next statement. *)

(** Lines 59-73: If-Match, else If-Unmodified-Since. *)
Definition Conditional_match (c : gin.Context) (resource : Resource) : option Result :=
  let hdr := http.Header_ (gin.Request c) in
  match applicable (asEtagger resource) (http.Get hdr IfMatch) with
  | Some etagger =>
      if negb (handleIfMatch etagger (http.Get hdr IfMatch))
      then Some (c, (false, Some ErrWasModified))
      else None
  | None =>
      match applicable (asLastModifier resource) (http.Get hdr IfUnmodifiedSince) with
      | Some modifier =>
          if negb (handleIfUnmodifiedSince modifier (http.Get hdr IfUnmodifiedSince))
          then Some (c, (false, Some ErrWasModified))
          else None
      | None => None
      end
  end.

(** Lines 75-95: If-None-Match, else the method guard, else
    If-Modified-Since. *)
Definition Conditional_none_match (now : time.Time) (c : gin.Context)
    (resource : Resource) : option Result :=
  let hdr := http.Header_ (gin.Request c) in
  let method := http.Method (gin.Request c) in
  match applicable (asEtagger resource) (http.Get hdr IfNoneMatch) with
  | Some etagger =>
      if negb (handleIfNoneMatch etagger (http.Get hdr IfNoneMatch)) then
        if String.eqb method Get || String.eqb method Head
        then Some (gin.AbortWithStatus http.StatusNotModified c, (true, None))
        else Some (gin.AbortWithStatus http.StatusPreconditionFailed c, (true, None))
      else None
  | None =>
      if negb (String.eqb method Get) || negb (String.eqb method Head)
      then Some (c, (false, None))
      else
        match applicable (asLastModifier resource) (http.Get hdr IfModifiedSince) with
        | Some modifier =>
            if negb (handleIfModifiedSince now modifier (http.Get hdr IfModifiedSince))
            then Some (gin.AbortWithStatus http.StatusNotModified c, (true, None))
            else None
        | None => None
        end
  end.

(** Lines 97-102: If-Range. *)
Definition Conditional_range (c : gin.Context) (resource : Resource) : option Result :=
  let hdr := http.Header_ (gin.Request c) in
  let method := http.Method (gin.Request c) in
  if String.eqb method Get
     && negb (String.eqb (http.Get hdr Range) "")
     && negb (String.eqb (http.Get hdr IfRange) "")
  then
    if negb (handleIfRange (asEtagger resource) (http.Get hdr IfRange))
    then Some (c, (false, Some ErrRangeMismatch))
    else None
  else None.

Definition Conditional (now : time.Time) (c : gin.Context) (resource : Resource) : Result :=
  match Conditional_match c resource with
  | Some r => r
  | None =>
      match Conditional_none_match now c resource with
      | Some r => r
      | None =>
          match Conditional_range c resource with
          | Some r => r
          | None => (c, (false, None))
          end
      end
  end.

End Conditional.

(** ** Verdicts

    The three outcomes a caller observes, written on the values
    [Conditional] returns. *)

(** [return false, nil] with the context untouched. *)
Definition Continue (c : gin.Context) : Result := (c, (false, None)).

(** [c.AbortWithStatus(code); return true, nil]. *)
Definition ShortCircuit (code : Z) (c : gin.Context) : Result :=
  (gin.AbortWithStatus code c, (true, None)).

(** [return false, err]. *)
Definition Reject (err : error) (c : gin.Context) : Result := (c, (false, Some err)).

(** [c.Request.Header.Get(key)] and [c.Request.Method]. *)
Abbreviation header c key := (http.Get (http.Header_ (gin.Request c)) key).
Abbreviation method c := (http.Method (gin.Request c)).

(** The type of [time.Parse]. *)
Abbreviation Parser := (string -> string -> option time.Time).

(** What a caller observes of a result apart from the request it sent:
    the response status, the abort flag and the returned pair. *)
Definition outcome (r : Result) : Z * bool * (bool * option error) :=
  (gin.Status (fst r), gin.IsAborted (fst r), snd r).

(** The context [c] with the values stored under [key] replaced by
    [values]; the method and the response state are kept. *)
Definition with_header (key : string) (values : list string) (c : gin.Context) : gin.Context :=
  gin.mkContext
    (http.mkRequest (method c) (<[key := values]> (http.Header_ (gin.Request c))))
    (gin.Status c) (gin.IsAborted c).

(** The return statements of [Conditional] that can be reached, each with
    the conditions under which control arrives there: lines 63 and 70,
    81, 84, 89, 100 and 104. *)
Inductive Conditional_path (time_Parse : Parser) (c : gin.Context) (resource : Resource)
  : Result -> Prop :=
| path_was_modified :
    Conditional_match time_Parse c resource = Some (Reject ErrWasModified c) ->
    Conditional_path time_Parse c resource (Reject ErrWasModified c)
| path_not_modified etagger :
    Conditional_match time_Parse c resource = None ->
    applicable (asEtagger resource) (header c IfNoneMatch) = Some etagger ->
    handleIfNoneMatch etagger (header c IfNoneMatch) = false ->
    method c = Get \/ method c = Head ->
    Conditional_path time_Parse c resource (ShortCircuit http.StatusNotModified c)
| path_precondition_failed etagger :
    Conditional_match time_Parse c resource = None ->
    applicable (asEtagger resource) (header c IfNoneMatch) = Some etagger ->
    handleIfNoneMatch etagger (header c IfNoneMatch) = false ->
    method c <> Get -> method c <> Head ->
    Conditional_path time_Parse c resource (ShortCircuit http.StatusPreconditionFailed c)
| path_method_guard :
    Conditional_match time_Parse c resource = None ->
    applicable (asEtagger resource) (header c IfNoneMatch) = None ->
    Conditional_path time_Parse c resource (Continue c)
| path_range_mismatch etagger :
    Conditional_match time_Parse c resource = None ->
    applicable (asEtagger resource) (header c IfNoneMatch) = Some etagger ->
    handleIfNoneMatch etagger (header c IfNoneMatch) = true ->
    method c = Get -> header c Range <> "" -> header c IfRange <> "" ->
    Conditional_path time_Parse c resource (Reject ErrRangeMismatch c)
| path_end etagger :
    Conditional_match time_Parse c resource = None ->
    applicable (asEtagger resource) (header c IfNoneMatch) = Some etagger ->
    handleIfNoneMatch etagger (header c IfNoneMatch) = true ->
    ~ (method c = Get /\ header c Range <> "" /\ header c IfRange <> "") ->
    Conditional_path time_Parse c resource (Continue c).

(** ** Sample data for the examples *)

(** Sun, 06 Nov 1994 08:49:37 GMT and the same time a day later. *)
Definition nov6 : time.Time := 784111777000000000.
Definition nov7 : time.Time := 784198177000000000.

(** A stand-in for [time.Parse] that knows two HTTP-dates and rejects
    every other string. *)
Definition sample_Parse (layout value : string) : option time.Time :=
  if String.eqb layout http.TimeFormat then
    if String.eqb value "Sun, 06 Nov 1994 08:49:37 GMT" then Some nov6
    else if String.eqb value "Mon, 07 Nov 1994 08:49:37 GMT" then Some nov7
    else None
  else None.

(** Some evaluation instant after both dates. *)
Definition sample_now : time.Time := 1793404800000000000.

(** A fresh context for a request with the given method and headers. *)
Definition request (method : string) (headers : list (string * string)) : gin.Context :=
  gin.mkContext
    (http.mkRequest method (list_to_map (prod_map id (fun v => [v]) <$> headers)))
    200 false.

Definition etag_resource (tag : string) (err : option error) : Resource :=
  mkResource (Some (mkEtagger (tag, err))) None.

Definition dated_resource (t : time.Time) : Resource :=
  mkResource None (Some (mkLastModifier t)).

(** ** Basic facts *)

Lemma applicable_Some {A : Type} (iface : option A) (header : string) (x : A) :
  applicable iface header = Some x <-> iface = Some x /\ header <> "".
Proof.
  unfold applicable. destruct iface as [y|].
  - destruct (String.eqb_spec header "") as [->|Hne].
    + split; [discriminate | intros [_ H]; now contradiction H].
    + split; [intros [= ->]; now split | intros [[= ->] _]; reflexivity].
  - split; [discriminate | intros [H _]; discriminate H].
Qed.

Lemma applicable_None {A : Type} (iface : option A) (header : string) :
  applicable iface header = None <-> iface = None \/ header = "".
Proof.
  unfold applicable. destruct iface as [y|].
  - destruct (String.eqb_spec header "") as [->|Hne].
    + split; auto.
    + split; [discriminate | intros [H|H]; [discriminate H | now contradiction Hne]].
  - split; auto.
Qed.

(** The guard of line 88 is true for every method: no string is both
    "GET" and "HEAD". *)
Lemma method_guard_true (method : string) :
  negb (String.eqb method Get) || negb (String.eqb method Head) = true.
Proof.
  destruct (String.eqb_spec method Get) as [->|_]; reflexivity.
Qed.

Section Facts.

Variable time_Parse : string -> string -> option time.Time.

(** Without an applicable If-None-Match the second chain returns
    [false, nil] at line 89, for every method. *)
Lemma Conditional_none_match_inapplicable now c resource :
  applicable (asEtagger resource) (http.Get (http.Header_ (gin.Request c)) IfNoneMatch) = None ->
  Conditional_none_match time_Parse now c resource = Some (Continue c).
Proof.
  intros H. unfold Conditional_none_match. rewrite H, method_guard_true. reflexivity.
Qed.

(** The first chain either falls through or rejects with [ErrWasModified]. *)
Lemma Conditional_match_cases c resource :
  Conditional_match time_Parse c resource = None \/
  Conditional_match time_Parse c resource = Some (Reject ErrWasModified c).
Proof.
  unfold Conditional_match.
  repeat (case_match; auto).
Qed.

(** What falling through the first chain means on the headers. *)
Lemma Conditional_match_None c resource :
  Conditional_match time_Parse c resource = None <->
  match applicable (asEtagger resource) (http.Get (http.Header_ (gin.Request c)) IfMatch) with
  | Some etagger => handleIfMatch etagger (http.Get (http.Header_ (gin.Request c)) IfMatch) = true
  | None =>
      match applicable (asLastModifier resource)
              (http.Get (http.Header_ (gin.Request c)) IfUnmodifiedSince) with
      | Some modifier =>
          handleIfUnmodifiedSince time_Parse modifier
            (http.Get (http.Header_ (gin.Request c)) IfUnmodifiedSince) = true
      | None => True
      end
  end.
Proof.
  unfold Conditional_match.
  destruct (applicable (asEtagger resource) _) as [e|].
  - destruct (handleIfMatch e _); simpl; split; auto; discriminate.
  - destruct (applicable (asLastModifier resource) _) as [m|]; [|tauto].
    destruct (handleIfUnmodifiedSince _ m _); simpl; split; auto; discriminate.
Qed.

(** The third chain either falls through or rejects with
    [ErrRangeMismatch]. *)
Lemma Conditional_range_cases c resource :
  Conditional_range c resource = None \/
  Conditional_range c resource = Some (Reject ErrRangeMismatch c).
Proof.
  unfold Conditional_range, handleIfRange.
  case_match; auto.
Qed.

(** The first chain reads the headers If-Match and If-Unmodified-Since
    only, and neither the method nor the response state. *)
Lemma Conditional_match_headers c c' resource :
  http.Get (http.Header_ (gin.Request c')) IfMatch
    = http.Get (http.Header_ (gin.Request c)) IfMatch ->
  http.Get (http.Header_ (gin.Request c')) IfUnmodifiedSince
    = http.Get (http.Header_ (gin.Request c)) IfUnmodifiedSince ->
  Conditional_match time_Parse c resource = None ->
  Conditional_match time_Parse c' resource = None.
Proof.
  intros H1 H2. rewrite !Conditional_match_None, H1, H2. trivial.
Qed.

End Facts.

(** [Conditional] returns [true] only together with an abort: when the
    second chain falls through or is skipped, the flag is [false]. *)
Lemma Conditional_not_handled (time_Parse : Parser) now c resource :
  Conditional_none_match time_Parse now c resource = None ->
  fst (snd (Conditional time_Parse now c resource)) = false.
Proof.
  intros H. unfold Conditional. rewrite H.
  destruct (Conditional_match_cases time_Parse c resource) as [-> | ->]; [|reflexivity].
  destruct (Conditional_range_cases c resource) as [-> | ->]; reflexivity.
Qed.

(** ** The second chain: If-None-Match and If-Modified-Since *)

(** C10: when the first chain does not reject and If-None-Match is not
    applicable (header absent or empty, or no etag capability),
    [Conditional] returns [false, nil] with the context untouched; this
    stays so whatever the method and whatever the values of the
    If-Modified-Since, If-Range and Range headers. *)
Theorem Conditional_continue_without_if_none_match
    (time_Parse : Parser) (now : time.Time) (c : gin.Context) (resource : Resource) :
  Conditional_match time_Parse c resource = None ->
  applicable (asEtagger resource) (header c IfNoneMatch) = None ->
  Conditional time_Parse now c resource = Continue c /\
  forall (method' : string) (ims ir rg : list string) (status : Z) (aborted : bool),
    let c' := gin.mkContext
                (http.mkRequest method'
                   (<[IfModifiedSince := ims]>
                      (<[IfRange := ir]> (<[Range := rg]> (http.Header_ (gin.Request c))))))
                status aborted in
    Conditional time_Parse now c' resource = Continue c'.
Proof.
  intros HA HB.
  assert (step : forall d, Conditional_match time_Parse d resource = None ->
                 applicable (asEtagger resource) (header d IfNoneMatch) = None ->
                 Conditional time_Parse now d resource = Continue d).
  { intros d H1 H2. unfold Conditional.
    rewrite H1, (Conditional_none_match_inapplicable time_Parse now d resource H2).
    reflexivity. }
  split; [now apply step|].
  intros method' ims ir rg status aborted c'.
  assert (same : forall key, key <> IfModifiedSince -> key <> IfRange -> key <> Range ->
                 header c' key = header c key).
  { intros key K1 K2 K3. unfold c', http.Get. simpl.
    rewrite !lookup_insert_ne by congruence. reflexivity. }
  apply step.
  - apply (Conditional_match_headers time_Parse c c' resource); auto;
      apply same; discriminate.
  - rewrite same by discriminate. exact HB.
Qed.

Lemma Conditional_continue_without_if_none_match_witness :
  let c := request "HEAD" [("If-Modified-Since", "garbage"); ("Range", "bytes=0-99");
                           ("If-Range", "xyz")] in
  let resource := mkResource (Some (mkEtagger ("abc", None))) (Some (mkLastModifier nov6)) in
  Conditional_match sample_Parse c resource = None /\
  applicable (asEtagger resource) (header c IfNoneMatch) = None /\
  Conditional sample_Parse sample_now c resource = Continue c.
Proof.
  intros c resource.
  assert (HA : Conditional_match sample_Parse c resource = None) by (vm_compute; reflexivity).
  assert (HB : applicable (asEtagger resource) (header c IfNoneMatch) = None)
    by (vm_compute; reflexivity).
  split; [exact HA | split; [exact HB|]].
  exact (proj1 (Conditional_continue_without_if_none_match
                  sample_Parse sample_now c resource HA HB)).
Defined.

(** C1: for a GET or HEAD request whose first chain does not reject, with
    no applicable If-None-Match, a non-empty If-Modified-Since header and a
    resource that supports last-modified, [Conditional] never reaches
    [handleIfModifiedSince]: it returns [false, nil] and not the 304
    short-circuit, whatever the predicate would say. *)
Theorem if_modified_since_unreachable
    (time_Parse : Parser) (now : time.Time) (c : gin.Context) (resource : Resource)
    (modifier : LastModifier) :
  Conditional_match time_Parse c resource = None ->
  applicable (asEtagger resource) (header c IfNoneMatch) = None ->
  method c = Get \/ method c = Head ->
  applicable (asLastModifier resource) (header c IfModifiedSince) = Some modifier ->
  Conditional time_Parse now c resource = Continue c /\
  Conditional time_Parse now c resource <> ShortCircuit http.StatusNotModified c.
Proof.
  intros HA HB _ _.
  assert (E : Conditional time_Parse now c resource = Continue c).
  { unfold Conditional.
    rewrite HA, (Conditional_none_match_inapplicable time_Parse now c resource HB).
    reflexivity. }
  split; [exact E|]. rewrite E. unfold Continue, ShortCircuit. intros [=].
Qed.

Lemma if_modified_since_unreachable_witness :
  let c := request "GET" [("If-Modified-Since", "Mon, 07 Nov 1994 08:49:37 GMT")] in
  let resource := dated_resource nov6 in
  Conditional_match sample_Parse c resource = None /\
  applicable (asEtagger resource) (header c IfNoneMatch) = None /\
  (method c = Get \/ method c = Head) /\
  applicable (asLastModifier resource) (header c IfModifiedSince)
    = Some (mkLastModifier nov6) /\
  Conditional sample_Parse sample_now c resource = Continue c /\
  Conditional sample_Parse sample_now c resource <> ShortCircuit http.StatusNotModified c.
Proof.
  intros c resource.
  assert (HA : Conditional_match sample_Parse c resource = None) by (vm_compute; reflexivity).
  assert (HB : applicable (asEtagger resource) (header c IfNoneMatch) = None)
    by (vm_compute; reflexivity).
  assert (HC : method c = Get \/ method c = Head) by (left; reflexivity).
  assert (HD : applicable (asLastModifier resource) (header c IfModifiedSince)
               = Some (mkLastModifier nov6)) by (vm_compute; reflexivity).
  repeat (split; [assumption|]).
  exact (if_modified_since_unreachable sample_Parse sample_now c resource
           (mkLastModifier nov6) HA HB HC HD).
Defined.

(** ** The first chain: If-Match and If-Unmodified-Since *)

(** C6: when [Etag] signals [ErrNoResource] and the If-Match header is
    exactly "*", [Conditional] returns [false, ErrWasModified]. *)
Theorem if_match_wildcard_no_resource
    (time_Parse : Parser) (now : time.Time) (c : gin.Context) (resource : Resource)
    (etagger : Etagger) (serverEtag : string) :
  asEtagger resource = Some etagger ->
  Etag etagger = (serverEtag, Some ErrNoResource) ->
  header c IfMatch = "*" ->
  handleIfMatch etagger "*" = false /\
  Conditional time_Parse now c resource = Reject ErrWasModified c.
Proof.
  intros HE HT HM.
  assert (P : handleIfMatch etagger "*" = false).
  { unfold handleIfMatch. rewrite HT. reflexivity. }
  split; [exact P|].
  unfold Conditional, Conditional_match.
  rewrite HM, HE. simpl. rewrite P. reflexivity.
Qed.

Lemma if_match_wildcard_no_resource_witness :
  let c := request "PUT" [("If-Match", "*")] in
  let etagger := mkEtagger ("", Some ErrNoResource) in
  let resource := mkResource (Some etagger) (Some (mkLastModifier nov6)) in
  asEtagger resource = Some etagger /\
  Etag etagger = ("", Some ErrNoResource) /\
  header c IfMatch = "*" /\
  Conditional sample_Parse sample_now c resource = Reject ErrWasModified c.
Proof.
  intros c etagger resource.
  assert (HM : header c IfMatch = "*") by (vm_compute; reflexivity).
  repeat (split; [first [reflexivity | exact HM]|]).
  exact (proj2 (if_match_wildcard_no_resource sample_Parse sample_now c resource
                  etagger "" eq_refl eq_refl HM)).
Defined.

(** What [handleIfUnmodifiedSince] computes on a date that parses: it is
    true exactly when the client's instant is before the server's. *)
Lemma handleIfUnmodifiedSince_parsed (time_Parse : Parser) modifier date clientDate :
  time_Parse http.TimeFormat date = Some clientDate ->
  handleIfUnmodifiedSince time_Parse modifier date
    = Z.ltb clientDate (LastModified modifier).
Proof.
  intros H. unfold handleIfUnmodifiedSince, time.Before. rewrite H.
  destruct (Z.ltb clientDate (LastModified modifier)); reflexivity.
Qed.

(** When If-Match is not applicable and If-Unmodified-Since is, the first
    chain rejects exactly when [handleIfUnmodifiedSince] is false. *)
Lemma Conditional_if_unmodified_since (time_Parse : Parser) now c resource modifier :
  applicable (asEtagger resource) (header c IfMatch) = None ->
  applicable (asLastModifier resource) (header c IfUnmodifiedSince) = Some modifier ->
  handleIfUnmodifiedSince time_Parse modifier (header c IfUnmodifiedSince) = false ->
  Conditional time_Parse now c resource = Reject ErrWasModified c.
Proof.
  intros H1 H2 H3. unfold Conditional, Conditional_match.
  rewrite H1, H2, H3. reflexivity.
Qed.

(** C2: on a parsable date, [handleIfUnmodifiedSince] holds exactly when the
    resource WAS modified strictly after the client's instant; a resource
    not modified since then is rejected with [ErrWasModified]. *)
Theorem if_unmodified_since_inverted
    (time_Parse : Parser) (now : time.Time) (c : gin.Context) (resource : Resource)
    (modifier : LastModifier) (clientDate : time.Time) :
  applicable (asEtagger resource) (header c IfMatch) = None ->
  applicable (asLastModifier resource) (header c IfUnmodifiedSince) = Some modifier ->
  time_Parse http.TimeFormat (header c IfUnmodifiedSince) = Some clientDate ->
  (handleIfUnmodifiedSince time_Parse modifier (header c IfUnmodifiedSince) = true
     <-> clientDate < LastModified modifier) /\
  (LastModified modifier <= clientDate ->
     Conditional time_Parse now c resource = Reject ErrWasModified c).
Proof.
  intros H1 H2 HP.
  pose proof (handleIfUnmodifiedSince_parsed time_Parse modifier _ _ HP) as E.
  split.
  - rewrite E. apply Z.ltb_lt.
  - intros Hle. apply (Conditional_if_unmodified_since time_Parse now c resource modifier H1 H2).
    rewrite E. apply Z.ltb_ge. exact Hle.
Qed.

Lemma if_unmodified_since_inverted_witness :
  let c := request "PUT" [("If-Unmodified-Since", "Mon, 07 Nov 1994 08:49:37 GMT")] in
  let resource := dated_resource nov6 in
  applicable (asEtagger resource) (header c IfMatch) = None /\
  applicable (asLastModifier resource) (header c IfUnmodifiedSince)
    = Some (mkLastModifier nov6) /\
  sample_Parse http.TimeFormat (header c IfUnmodifiedSince) = Some nov7 /\
  nov6 <= nov7 /\
  handleIfUnmodifiedSince sample_Parse (mkLastModifier nov6) (header c IfUnmodifiedSince)
    <> true /\
  Conditional sample_Parse sample_now c resource = Reject ErrWasModified c.
Proof.
  intros c resource.
  assert (H1 : applicable (asEtagger resource) (header c IfMatch) = None)
    by (vm_compute; reflexivity).
  assert (H2 : applicable (asLastModifier resource) (header c IfUnmodifiedSince)
               = Some (mkLastModifier nov6)) by (vm_compute; reflexivity).
  assert (HP : sample_Parse http.TimeFormat (header c IfUnmodifiedSince) = Some nov7)
    by (vm_compute; reflexivity).
  assert (Hle : nov6 <= nov7) by (unfold nov6, nov7; lia).
  destruct (if_unmodified_since_inverted sample_Parse sample_now c resource
              (mkLastModifier nov6) nov7 H1 H2 HP) as [Hiff Hrej].
  repeat (split; [assumption|]).
  split.
  - intros Ht. apply Hiff in Ht. simpl in Ht. unfold nov6, nov7 in Ht. lia.
  - exact (Hrej Hle).
Defined.

(** C7: an If-Unmodified-Since value that does not parse makes
    [handleIfUnmodifiedSince] false, and the request is rejected with
    [ErrWasModified] instead of being treated as if the header were absent. *)
Theorem if_unmodified_since_unparsable_rejects
    (time_Parse : Parser) (now : time.Time) (c : gin.Context) (resource : Resource)
    (modifier : LastModifier) :
  applicable (asEtagger resource) (header c IfMatch) = None ->
  applicable (asLastModifier resource) (header c IfUnmodifiedSince) = Some modifier ->
  time_Parse http.TimeFormat (header c IfUnmodifiedSince) = None ->
  handleIfUnmodifiedSince time_Parse modifier (header c IfUnmodifiedSince) = false /\
  Conditional time_Parse now c resource = Reject ErrWasModified c.
Proof.
  intros H1 H2 HP.
  assert (P : handleIfUnmodifiedSince time_Parse modifier (header c IfUnmodifiedSince) = false).
  { unfold handleIfUnmodifiedSince. rewrite HP. reflexivity. }
  split; [exact P|].
  exact (Conditional_if_unmodified_since time_Parse now c resource modifier H1 H2 P).
Qed.

Lemma if_unmodified_since_unparsable_rejects_witness :
  let c := request "PUT" [("If-Unmodified-Since", "yesterday")] in
  let resource := dated_resource nov6 in
  applicable (asEtagger resource) (header c IfMatch) = None /\
  applicable (asLastModifier resource) (header c IfUnmodifiedSince)
    = Some (mkLastModifier nov6) /\
  sample_Parse http.TimeFormat (header c IfUnmodifiedSince) = None /\
  handleIfUnmodifiedSince sample_Parse (mkLastModifier nov6) (header c IfUnmodifiedSince)
    = false /\
  Conditional sample_Parse sample_now c resource = Reject ErrWasModified c.
Proof.
  intros c resource.
  assert (H1 : applicable (asEtagger resource) (header c IfMatch) = None)
    by (vm_compute; reflexivity).
  assert (H2 : applicable (asLastModifier resource) (header c IfUnmodifiedSince)
               = Some (mkLastModifier nov6)) by (vm_compute; reflexivity).
  assert (HP : sample_Parse http.TimeFormat (header c IfUnmodifiedSince) = None)
    by (vm_compute; reflexivity).
  repeat (split; [assumption|]).
  exact (if_unmodified_since_unparsable_rejects sample_Parse sample_now c resource
           (mkLastModifier nov6) H1 H2 HP).
Defined.

(** ** If-None-Match *)

(** With a nil error, [handleIfNoneMatch] is a plain string comparison of
    the client's value with the server's etag. *)
Lemma handleIfNoneMatch_nil etagger serverEtag clientEtag :
  Etag etagger = (serverEtag, None) ->
  handleIfNoneMatch etagger clientEtag = negb (String.eqb clientEtag serverEtag).
Proof.
  intros HT. unfold handleIfNoneMatch. rewrite HT.
  destruct (String.eqb clientEtag serverEtag); reflexivity.
Qed.

(** C5: when the first chain does not reject and the resource's current
    etag equals the (non-empty) If-None-Match value, [Conditional] aborts
    with 304 for GET and HEAD and with 412 for every other method, and
    returns [true, nil]. *)
Theorem if_none_match_equal_short_circuits
    (time_Parse : Parser) (now : time.Time) (c : gin.Context) (resource : Resource)
    (etagger : Etagger) (E : string) :
  Conditional_match time_Parse c resource = None ->
  asEtagger resource = Some etagger ->
  Etag etagger = (E, None) ->
  header c IfNoneMatch = E ->
  E <> "" ->
  (method c = Get \/ method c = Head ->
     Conditional time_Parse now c resource = ShortCircuit http.StatusNotModified c) /\
  (method c <> Get -> method c <> Head ->
     Conditional time_Parse now c resource = ShortCircuit http.StatusPreconditionFailed c).
Proof.
  intros HA HE HT HN Hne.
  assert (Happ : applicable (asEtagger resource) (header c IfNoneMatch) = Some etagger).
  { apply applicable_Some. rewrite HN. now split. }
  assert (P : handleIfNoneMatch etagger E = false).
  { rewrite (handleIfNoneMatch_nil etagger E E HT), String.eqb_refl. reflexivity. }
  unfold Conditional, Conditional_none_match. rewrite HA, Happ, HN, P. simpl.
  split.
  - intros [-> | ->]; reflexivity.
  - intros H1 H2.
    apply String.eqb_neq in H1. apply String.eqb_neq in H2.
    rewrite H1, H2. reflexivity.
Qed.

Lemma if_none_match_equal_short_circuits_witness :
  let get := request "GET" [("If-None-Match", "abc")] in
  let delete := request "DELETE" [("If-None-Match", "abc")] in
  let etagger := mkEtagger ("abc", None) in
  let resource := mkResource (Some etagger) None in
  Conditional_match sample_Parse get resource = None /\
  Conditional_match sample_Parse delete resource = None /\
  header get IfNoneMatch = "abc" /\
  header delete IfNoneMatch = "abc" /\
  Conditional sample_Parse sample_now get resource = ShortCircuit 304 get /\
  Conditional sample_Parse sample_now delete resource = ShortCircuit 412 delete.
Proof.
  intros get delete etagger resource.
  assert (A1 : Conditional_match sample_Parse get resource = None)
    by (vm_compute; reflexivity).
  assert (A2 : Conditional_match sample_Parse delete resource = None)
    by (vm_compute; reflexivity).
  assert (N1 : header get IfNoneMatch = "abc") by (vm_compute; reflexivity).
  assert (N2 : header delete IfNoneMatch = "abc") by (vm_compute; reflexivity).
  assert (Hne : "abc" <> "") by discriminate.
  repeat (split; [assumption|]).
  split.
  - apply (proj1 (if_none_match_equal_short_circuits sample_Parse sample_now get resource
                    etagger "abc" A1 eq_refl eq_refl N1 Hne)).
    left. reflexivity.
  - apply (proj2 (if_none_match_equal_short_circuits sample_Parse sample_now delete resource
                    etagger "abc" A2 eq_refl eq_refl N2 Hne)); discriminate.
Defined.

(** C3: when [Etag] succeeds with a tag other than the literal "*", an
    If-None-Match value of "*" is compared with the tag as a string, so
    [handleIfNoneMatch] is true, the second chain falls through and
    [Conditional] does not short-circuit with any status. *)
Theorem if_none_match_wildcard_literal
    (time_Parse : Parser) (now : time.Time) (c : gin.Context) (resource : Resource)
    (etagger : Etagger) (serverEtag : string) :
  asEtagger resource = Some etagger ->
  Etag etagger = (serverEtag, None) ->
  serverEtag <> "*" ->
  header c IfNoneMatch = "*" ->
  handleIfNoneMatch etagger "*" = true /\
  Conditional_none_match time_Parse now c resource = None /\
  forall code, Conditional time_Parse now c resource <> ShortCircuit code c.
Proof.
  intros HE HT Hs HN.
  assert (P : handleIfNoneMatch etagger "*" = true).
  { rewrite (handleIfNoneMatch_nil etagger serverEtag "*" HT).
    destruct (String.eqb_spec "*" serverEtag) as [Heq|_]; [|reflexivity].
    now contradiction Hs. }
  assert (F : Conditional_none_match time_Parse now c resource = None).
  { unfold Conditional_none_match. rewrite HN, HE. simpl. rewrite P. reflexivity. }
  split; [exact P | split; [exact F|]].
  intros code Heq.
  pose proof (Conditional_not_handled time_Parse now c resource F) as Hb.
  rewrite Heq in Hb. discriminate Hb.
Qed.

Lemma if_none_match_wildcard_literal_witness :
  let c := request "GET" [("If-None-Match", "*")] in
  let etagger := mkEtagger ("abc", None) in
  let resource := mkResource (Some etagger) None in
  asEtagger resource = Some etagger /\
  Etag etagger = ("abc", None) /\
  "abc" <> "*" /\
  header c IfNoneMatch = "*" /\
  handleIfNoneMatch etagger "*" = true /\
  Conditional sample_Parse sample_now c resource = Continue c.
Proof.
  intros c etagger resource.
  assert (Hs : "abc" <> "*") by discriminate.
  assert (HN : header c IfNoneMatch = "*") by (vm_compute; reflexivity).
  destruct (if_none_match_wildcard_literal sample_Parse sample_now c resource etagger "abc"
              eq_refl eq_refl Hs HN) as [P _].
  repeat (split; [first [reflexivity | assumption]|]).
  vm_compute. reflexivity.
Defined.

(** ** If-Range *)

(** C4: [handleIfRange] is false even when the If-Range validator equals
    the resource's current etag, so a GET request with Range and a
    matching If-Range that gets past the first two chains is rejected
    with [ErrRangeMismatch]. *)
Theorem if_range_match_still_rejects
    (time_Parse : Parser) (now : time.Time) (c : gin.Context) (resource : Resource)
    (etagger : Etagger) (validator : string) :
  asEtagger resource = Some etagger ->
  Etag etagger = (validator, None) ->
  header c IfRange = validator ->
  validator <> "" ->
  header c Range <> "" ->
  method c = Get ->
  Conditional_match time_Parse c resource = None ->
  Conditional_none_match time_Parse now c resource = None ->
  handleIfRange (Some etagger) validator = false /\
  Conditional time_Parse now c resource = Reject ErrRangeMismatch c.
Proof.
  intros _ _ HR Hv Hrg HM HA HB.
  split; [reflexivity|].
  unfold Conditional, Conditional_range. rewrite HA, HB, HM, HR.
  apply String.eqb_neq in Hv. apply String.eqb_neq in Hrg.
  rewrite Hv, Hrg. reflexivity.
Qed.

Lemma if_range_match_still_rejects_witness :
  let c := request "GET" [("If-None-Match", "xyz"); ("Range", "bytes=0-99");
                          ("If-Range", "abc")] in
  let etagger := mkEtagger ("abc", None) in
  let resource := mkResource (Some etagger) None in
  header c IfRange = "abc" /\
  header c Range <> "" /\
  method c = Get /\
  Conditional_match sample_Parse c resource = None /\
  Conditional_none_match sample_Parse sample_now c resource = None /\
  Conditional sample_Parse sample_now c resource = Reject ErrRangeMismatch c.
Proof.
  intros c etagger resource.
  assert (HR : header c IfRange = "abc") by (vm_compute; reflexivity).
  assert (Hrg : header c Range <> "") by (vm_compute; discriminate).
  assert (HM : method c = Get) by reflexivity.
  assert (HA : Conditional_match sample_Parse c resource = None)
    by (vm_compute; reflexivity).
  assert (HB : Conditional_none_match sample_Parse sample_now c resource = None)
    by (vm_compute; reflexivity).
  assert (Hv : "abc" <> "") by discriminate.
  repeat (split; [assumption|]).
  exact (proj2 (if_range_match_still_rejects sample_Parse sample_now c resource etagger "abc"
                  eq_refl eq_refl HR Hv Hrg HM HA HB)).
Defined.

(** ** If-Modified-Since *)

(** C8: [handleIfModifiedSince] is false for a value that does not parse
    and for a date after the evaluation instant. *)
Theorem if_modified_since_invalid_fails
    (time_Parse : Parser) (now : time.Time) (modifier : LastModifier) (date : string) :
  time_Parse http.TimeFormat date = None \/
  (exists clientDate, time_Parse http.TimeFormat date = Some clientDate /\ now < clientDate) ->
  handleIfModifiedSince time_Parse now modifier date = false.
Proof.
  unfold handleIfModifiedSince, time.After.
  intros [-> | (clientDate & -> & Hlt)]; [reflexivity|].
  apply Z.ltb_lt in Hlt. rewrite Hlt. reflexivity.
Qed.

Lemma if_modified_since_invalid_fails_witness :
  (sample_Parse http.TimeFormat "tomorrow" = None /\
   handleIfModifiedSince sample_Parse sample_now (mkLastModifier nov6) "tomorrow" = false) /\
  (sample_Parse http.TimeFormat "Mon, 07 Nov 1994 08:49:37 GMT" = Some nov7 /\
   nov6 < nov7 /\
   handleIfModifiedSince sample_Parse nov6 (mkLastModifier nov6)
     "Mon, 07 Nov 1994 08:49:37 GMT" = false).
Proof.
  assert (P1 : sample_Parse http.TimeFormat "tomorrow" = None) by (vm_compute; reflexivity).
  assert (P2 : sample_Parse http.TimeFormat "Mon, 07 Nov 1994 08:49:37 GMT" = Some nov7)
    by (vm_compute; reflexivity).
  assert (Hlt : nov6 < nov7) by (unfold nov6, nov7; lia).
  split; [split; [exact P1|] | split; [exact P2 | split; [exact Hlt|]]].
  - apply if_modified_since_invalid_fails. left. exact P1.
  - apply if_modified_since_invalid_fails. right. exists nov7. split; [exact P2 | exact Hlt].
Defined.

(** ** Determinism *)

(** The second chain does not depend on the clock: [handleIfModifiedSince],
    the only reader of [time.Now()], sits behind the guard of line 88. *)
Lemma Conditional_none_match_clock (time_Parse : Parser) now1 now2 c resource :
  Conditional_none_match time_Parse now1 c resource
    = Conditional_none_match time_Parse now2 c resource.
Proof.
  unfold Conditional_none_match.
  destruct (applicable (asEtagger resource) _); [reflexivity|].
  rewrite method_guard_true. reflexivity.
Qed.

(** C9: for fixed headers, method and resource snapshot, two evaluations
    of [Conditional], at whatever instants they run, return the same
    result and leave the same context. *)
Theorem Conditional_deterministic
    (time_Parse : Parser) (now1 now2 : time.Time) (c : gin.Context) (resource : Resource) :
  Conditional time_Parse now1 c resource = Conditional time_Parse now2 c resource.
Proof.
  unfold Conditional.
  rewrite (Conditional_none_match_clock time_Parse now1 now2). reflexivity.
Qed.

(** ** The return paths of [Conditional] *)

(** Every call ends at one of the reachable return statements. *)
Lemma Conditional_path_total (time_Parse : Parser) now c resource :
  Conditional_path time_Parse c resource (Conditional time_Parse now c resource).
Proof.
  unfold Conditional.
  destruct (Conditional_match_cases time_Parse c resource) as [HA | HA]; rewrite HA.
  2: { now apply path_was_modified. }
  unfold Conditional_none_match.
  destruct (applicable (asEtagger resource) (header c IfNoneMatch)) as [etagger|] eqn:HB.
  - destruct (handleIfNoneMatch etagger (header c IfNoneMatch)) eqn:HN; simpl.
    + unfold Conditional_range, handleIfRange.
      destruct (String.eqb_spec (method c) Get) as [HM|HM]; simpl.
      * destruct (String.eqb_spec (header c Range) "") as [HR|HR]; simpl.
        { apply (path_end _ _ _ etagger); auto. intros (_ & H & _). now apply H. }
        destruct (String.eqb_spec (header c IfRange) "") as [HI|HI]; simpl.
        { apply (path_end _ _ _ etagger); auto. intros (_ & _ & H). now apply H. }
        now apply (path_range_mismatch _ _ _ etagger).
      * apply (path_end _ _ _ etagger); auto. intros (H & _). now apply HM.
    + destruct (String.eqb_spec (method c) Get) as [HM|HM]; simpl.
      { apply (path_not_modified _ _ _ etagger); auto. }
      destruct (String.eqb_spec (method c) Head) as [HH|HH]; simpl.
      { apply (path_not_modified _ _ _ etagger); auto. }
      now apply (path_precondition_failed _ _ _ etagger).
  - rewrite method_guard_true. now apply path_method_guard.
Qed.

(** X1: [Conditional] has five possible results: it continues, rejects
    with one of its two errors, or aborts with 304 or 412; the request is
    never changed and no other status is written. *)
Theorem Conditional_result_shape
    (time_Parse : Parser) (now : time.Time) (c : gin.Context) (resource : Resource) :
  Conditional time_Parse now c resource = Continue c \/
  Conditional time_Parse now c resource = Reject ErrWasModified c \/
  Conditional time_Parse now c resource = Reject ErrRangeMismatch c \/
  Conditional time_Parse now c resource = ShortCircuit http.StatusNotModified c \/
  Conditional time_Parse now c resource = ShortCircuit http.StatusPreconditionFailed c.
Proof.
  destruct (Conditional_path_total time_Parse now c resource); tauto.
Qed.

(** X2: when [Conditional] returns [true], the first chain fell through,
    If-None-Match was applicable and [handleIfNoneMatch] was false; the
    status written is 304 for GET and HEAD and 412 for any other method,
    and the error is nil. *)
Theorem short_circuit_only_by_if_none_match
    (time_Parse : Parser) (now : time.Time) (c : gin.Context) (resource : Resource) :
  fst (snd (Conditional time_Parse now c resource)) = true ->
  Conditional_match time_Parse c resource = None /\
  (exists etagger,
     applicable (asEtagger resource) (header c IfNoneMatch) = Some etagger /\
     handleIfNoneMatch etagger (header c IfNoneMatch) = false) /\
  Conditional time_Parse now c resource
    = ShortCircuit (if String.eqb (method c) Get || String.eqb (method c) Head
                    then http.StatusNotModified else http.StatusPreconditionFailed) c.
Proof.
  destruct (Conditional_path_total time_Parse now c resource)
    as [HA | e HA HB HN HM | e HA HB HN HM HH | HA HB | e HA HB HN HM HR HI | e HA HB HN HC];
    simpl; intros Hflag; try discriminate Hflag.
  - split; [exact HA | split; [now exists e|]].
    destruct HM as [-> | ->]; reflexivity.
  - split; [exact HA | split; [now exists e|]].
    apply String.eqb_neq in HM. apply String.eqb_neq in HH. rewrite HM, HH. reflexivity.
Qed.

Lemma short_circuit_only_by_if_none_match_witness :
  let c := request "HEAD" [("If-None-Match", "abc")] in
  let resource := etag_resource "abc" None in
  fst (snd (Conditional sample_Parse sample_now c resource)) = true /\
  Conditional sample_Parse sample_now c resource = ShortCircuit 304 c.
Proof.
  intros c resource.
  assert (H : fst (snd (Conditional sample_Parse sample_now c resource)) = true)
    by (vm_compute; reflexivity).
  split; [exact H|].
  exact (proj2 (proj2 (short_circuit_only_by_if_none_match
                         sample_Parse sample_now c resource H))).
Defined.

(** X3: [Conditional] rejects with [ErrRangeMismatch] exactly when the
    first chain falls through, If-None-Match is applicable and holds, the
    method is GET and both Range and If-Range are non-empty.  The value of
    If-Range and the resource's etag play no part. *)
Theorem range_mismatch_iff
    (time_Parse : Parser) (now : time.Time) (c : gin.Context) (resource : Resource) :
  Conditional time_Parse now c resource = Reject ErrRangeMismatch c <->
  Conditional_match time_Parse c resource = None /\
  (exists etagger,
     applicable (asEtagger resource) (header c IfNoneMatch) = Some etagger /\
     handleIfNoneMatch etagger (header c IfNoneMatch) = true) /\
  method c = Get /\ header c Range <> "" /\ header c IfRange <> "".
Proof.
  split.
  - destruct (Conditional_path_total time_Parse now c resource)
      as [HA | e HA HB HN HM | e HA HB HN HM HH | HA HB | e HA HB HN HM HR HI | e HA HB HN HC];
      intros E; try discriminate E.
    split; [exact HA | split; [now exists e | auto]].
  - intros (HA & (e & HB & HN) & HM & HR & HI).
    unfold Conditional, Conditional_none_match, Conditional_range, handleIfRange.
    rewrite HA, HB, HN, HM. simpl.
    apply String.eqb_neq in HR. apply String.eqb_neq in HI. rewrite HR, HI. reflexivity.
Qed.

(** X4: [Conditional] rejects with [ErrWasModified] exactly when If-Match
    is applicable and [handleIfMatch] is false, or If-Match is not
    applicable, If-Unmodified-Since is, and [handleIfUnmodifiedSince] is
    false.  No later header can undo or cause this rejection. *)
Theorem was_modified_iff
    (time_Parse : Parser) (now : time.Time) (c : gin.Context) (resource : Resource) :
  Conditional time_Parse now c resource = Reject ErrWasModified c <->
  (exists etagger,
     applicable (asEtagger resource) (header c IfMatch) = Some etagger /\
     handleIfMatch etagger (header c IfMatch) = false) \/
  (applicable (asEtagger resource) (header c IfMatch) = None /\
   exists modifier,
     applicable (asLastModifier resource) (header c IfUnmodifiedSince) = Some modifier /\
     handleIfUnmodifiedSince time_Parse modifier (header c IfUnmodifiedSince) = false).
Proof.
  split.
  - destruct (Conditional_path_total time_Parse now c resource)
      as [HA | e HA HB HN HM | e HA HB HN HM HH | HA HB | e HA HB HN HM HR HI | e HA HB HN HC];
      intros E; try discriminate E.
    clear E. unfold Conditional_match in HA.
    destruct (applicable (asEtagger resource) (header c IfMatch)) as [e|].
    + left. exists e. split; [reflexivity|].
      destruct (handleIfMatch e (header c IfMatch)); [discriminate HA | reflexivity].
    + right. split; [reflexivity|].
      destruct (applicable (asLastModifier resource) (header c IfUnmodifiedSince))
        as [m|]; [|discriminate HA].
      exists m. split; [reflexivity|].
      destruct (handleIfUnmodifiedSince time_Parse m (header c IfUnmodifiedSince));
        [discriminate HA | reflexivity].
  - intros [(e & HB & HN) | (HB & m & HC & HN)];
      unfold Conditional, Conditional_match.
    + rewrite HB, HN. reflexivity.
    + rewrite HB, HC, HN. reflexivity.
Qed.

(** After an abort the request is the same, so a second call takes the
    same path and writes the same status. *)
Lemma Conditional_after_abort (time_Parse : Parser) now c resource code etagger :
  Conditional_match time_Parse c resource = None ->
  applicable (asEtagger resource) (header c IfNoneMatch) = Some etagger ->
  handleIfNoneMatch etagger (header c IfNoneMatch) = false ->
  Conditional time_Parse now c resource = ShortCircuit code c ->
  Conditional time_Parse now (gin.AbortWithStatus code c) resource = ShortCircuit code c.
Proof.
  intros HA HB HN E.
  assert (HA' : Conditional_match time_Parse (gin.AbortWithStatus code c) resource = None)
    by (apply (Conditional_match_headers time_Parse c); auto).
  revert E. unfold Conditional, Conditional_none_match. rewrite HA, HA'. simpl.
  rewrite HB, HN. simpl.
  destruct (String.eqb (method c) Get || String.eqb (method c) Head);
    unfold ShortCircuit, gin.AbortWithStatus; simpl; intros [= <-]; reflexivity.
Qed.

(** X5: running [Conditional] again on the context it returned, at any
    later instant, gives the same result once more: an aborted request is
    aborted with the same status, a rejected one rejected with the same
    error. *)
Theorem Conditional_idempotent
    (time_Parse : Parser) (now now' : time.Time) (c : gin.Context) (resource : Resource) :
  Conditional time_Parse now' (fst (Conditional time_Parse now c resource)) resource
    = Conditional time_Parse now c resource.
Proof.
  assert (clock : forall d, Conditional time_Parse now' d resource
                            = Conditional time_Parse now d resource).
  { intros d. unfold Conditional.
    rewrite (Conditional_none_match_clock time_Parse now' now). reflexivity. }
  rewrite clock.
  pose proof (Conditional_path_total time_Parse now c resource) as P.
  remember (Conditional time_Parse now c resource) as R eqn:E.
  symmetry in E.
  destruct P as [HA | e HA HB HN HM | e HA HB HN HM HH | HA HB | e HA HB HN HM HR HI
                 | e HA HB HN HC]; simpl; try exact E.
  - apply (Conditional_after_abort time_Parse now c resource _ e); auto.
  - apply (Conditional_after_abort time_Parse now c resource _ e); auto.
Qed.

(** ** Which parts of the request matter *)

Lemma header_with_header_ne key values c key' :
  key <> key' -> header (with_header key values c) key' = header c key'.
Proof.
  intros Hne. unfold with_header, http.Get. simpl.
  rewrite lookup_insert_ne by exact Hne. reflexivity.
Qed.

(** The outcome is a function of the method, of the response state and of
    five header values; If-Unmodified-Since counts only when If-Match is
    not applicable, and If-Modified-Since and the clock never do. *)
Lemma Conditional_outcome_congr (time_Parse : Parser) now now' c c' resource :
  method c' = method c ->
  gin.Status c' = gin.Status c ->
  gin.IsAborted c' = gin.IsAborted c ->
  header c' IfMatch = header c IfMatch ->
  (applicable (asEtagger resource) (header c IfMatch) = None ->
   header c' IfUnmodifiedSince = header c IfUnmodifiedSince) ->
  header c' IfNoneMatch = header c IfNoneMatch ->
  header c' Range = header c Range ->
  header c' IfRange = header c IfRange ->
  outcome (Conditional time_Parse now' c' resource)
    = outcome (Conditional time_Parse now c resource).
Proof.
  intros Hm Hs Ha H1 H2 H3 H4 H5.
  unfold Conditional, Conditional_match, Conditional_none_match, Conditional_range,
    handleIfRange.
  rewrite Hm, H1, H3, H4, H5, !method_guard_true.
  assert (same : forall b e, outcome (c', (b, e)) = outcome (c, (b, e))).
  { intros b e. unfold outcome. simpl. now rewrite Hs, Ha. }
  destruct (applicable (asEtagger resource) (header c IfMatch)) as [e1|].
  - destruct (handleIfMatch e1 (header c IfMatch)); simpl; [|apply same].
    destruct (applicable (asEtagger resource) (header c IfNoneMatch)) as [e2|];
      [|apply same].
    destruct (handleIfNoneMatch e2 (header c IfNoneMatch)); simpl.
    + destruct (_ && _); simpl; apply same.
    + destruct (_ || _); reflexivity.
  - rewrite H2 by reflexivity.
    destruct (applicable (asLastModifier resource) (header c IfUnmodifiedSince)) as [m|].
    + destruct (handleIfUnmodifiedSince time_Parse m _); simpl; [|apply same].
      destruct (applicable (asEtagger resource) (header c IfNoneMatch)) as [e2|];
        [|apply same].
      destruct (handleIfNoneMatch e2 (header c IfNoneMatch)); simpl.
      * destruct (_ && _); simpl; apply same.
      * destruct (_ || _); reflexivity.
    + destruct (applicable (asEtagger resource) (header c IfNoneMatch)) as [e2|];
        [|apply same].
      destruct (handleIfNoneMatch e2 (header c IfNoneMatch)); simpl.
      * destruct (_ && _); simpl; apply same.
      * destruct (_ || _); reflexivity.
Qed.

(** X6: If-Match takes precedence: when the If-Match header is non-empty
    and the resource is an [Etagger], the If-Unmodified-Since header is not
    consulted, so replacing its value changes nothing in the outcome. *)
Theorem if_match_shadows_if_unmodified_since
    (time_Parse : Parser) (now : time.Time) (c : gin.Context) (resource : Resource)
    (etagger : Etagger) (values : list string) :
  applicable (asEtagger resource) (header c IfMatch) = Some etagger ->
  outcome (Conditional time_Parse now (with_header IfUnmodifiedSince values c) resource)
    = outcome (Conditional time_Parse now c resource).
Proof.
  intros Happ.
  apply Conditional_outcome_congr; try reflexivity;
    try (apply header_with_header_ne; discriminate).
  rewrite Happ. discriminate.
Qed.

Lemma if_match_shadows_if_unmodified_since_witness :
  let c := request "PUT" [("If-Match", "abc")] in
  let etagger := mkEtagger ("abc", None) in
  let resource := mkResource (Some etagger) (Some (mkLastModifier nov6)) in
  applicable (asEtagger resource) (header c IfMatch) = Some etagger /\
  Conditional sample_Parse sample_now
    (with_header IfUnmodifiedSince ["yesterday"] (with_header IfMatch [] c)) resource
    = Reject ErrWasModified
        (with_header IfUnmodifiedSince ["yesterday"] (with_header IfMatch [] c)) /\
  outcome (Conditional sample_Parse sample_now
             (with_header IfUnmodifiedSince ["yesterday"] c) resource)
    = outcome (Continue c).
Proof.
  intros c etagger resource.
  assert (H : applicable (asEtagger resource) (header c IfMatch) = Some etagger)
    by (vm_compute; reflexivity).
  split; [exact H | split; [vm_compute; reflexivity|]].
  rewrite (if_match_shadows_if_unmodified_since sample_Parse sample_now c resource
             etagger ["yesterday"] H).
  vm_compute. reflexivity.
Defined.

(** X7: the If-Modified-Since header has no effect on [Conditional]: for
    every request, resource and pair of instants, replacing its value
    leaves the outcome as it was. *)
Theorem if_modified_since_has_no_effect
    (time_Parse : Parser) (now now' : time.Time) (c : gin.Context) (resource : Resource)
    (values : list string) :
  outcome (Conditional time_Parse now' (with_header IfModifiedSince values c) resource)
    = outcome (Conditional time_Parse now c resource).
Proof.
  apply Conditional_outcome_congr; try reflexivity; intros;
    apply header_with_header_ne; discriminate.
Qed.

(** ** Requests and resources with nothing to check *)

(** X8: a resource that implements neither [Etagger] nor [LastModifier]
    passes every request: [Conditional] returns [false, nil] and leaves the
    context untouched, whatever the method and headers. *)
Theorem no_capability_continues
    (time_Parse : Parser) (now : time.Time) (c : gin.Context) (resource : Resource) :
  asEtagger resource = None ->
  asLastModifier resource = None ->
  Conditional time_Parse now c resource = Continue c.
Proof.
  intros HE HL.
  unfold Conditional, Conditional_match, Conditional_none_match.
  rewrite HE, HL. simpl. rewrite method_guard_true. reflexivity.
Qed.

Lemma no_capability_continues_witness :
  let c := request "GET" [("If-Match", "abc"); ("If-None-Match", "*");
                          ("If-Unmodified-Since", "yesterday"); ("Range", "bytes=0-1");
                          ("If-Range", "abc")] in
  Conditional sample_Parse sample_now c (mkResource None None) = Continue c.
Proof.
  intros c.
  exact (no_capability_continues sample_Parse sample_now c (mkResource None None)
           eq_refl eq_refl).
Defined.

(** X9: a request whose If-Match, If-Unmodified-Since and If-None-Match
    headers are all absent or empty passes for every resource, also when
    it carries If-Modified-Since, Range or If-Range. *)
Theorem no_validator_header_continues
    (time_Parse : Parser) (now : time.Time) (c : gin.Context) (resource : Resource) :
  header c IfMatch = "" ->
  header c IfUnmodifiedSince = "" ->
  header c IfNoneMatch = "" ->
  Conditional time_Parse now c resource = Continue c.
Proof.
  intros H1 H2 H3.
  assert (none : forall A (x : option A), applicable x "" = None)
    by (intros A [x|]; reflexivity).
  unfold Conditional, Conditional_match, Conditional_none_match.
  rewrite H1, H2, H3, !none, method_guard_true. reflexivity.
Qed.

Lemma no_validator_header_continues_witness :
  let c := request "GET" [("If-Modified-Since", "Sun, 06 Nov 1994 08:49:37 GMT");
                          ("Range", "bytes=0-1"); ("If-Range", "xyz")] in
  let resource := mkResource (Some (mkEtagger ("abc", None))) (Some (mkLastModifier nov6)) in
  header c IfMatch = "" /\ header c IfUnmodifiedSince = "" /\ header c IfNoneMatch = "" /\
  Conditional sample_Parse sample_now c resource = Continue c.
Proof.
  intros c resource.
  assert (H1 : header c IfMatch = "") by (vm_compute; reflexivity).
  assert (H2 : header c IfUnmodifiedSince = "") by (vm_compute; reflexivity).
  assert (H3 : header c IfNoneMatch = "") by (vm_compute; reflexivity).
  repeat (split; [assumption|]).
  exact (no_validator_header_continues sample_Parse sample_now c resource H1 H2 H3).
Defined.

(** ** The etag predicates *)

(** X10: [handleIfMatch] is true in exactly two situations: [Etag]
    succeeded and the client sent "*" or the very etag; or [Etag] signalled
    [ErrNoResource], the client did not send "*", and the string returned
    beside the error equals the client's value.  Any other error makes it
    false. *)
Theorem handleIfMatch_true_iff (etagger : Etagger) (clientEtag : string) :
  handleIfMatch etagger clientEtag = true <->
  (snd (Etag etagger) = None /\ (clientEtag = "*" \/ fst (Etag etagger) = clientEtag)) \/
  (snd (Etag etagger) = Some ErrNoResource /\ clientEtag <> "*" /\
   fst (Etag etagger) = clientEtag).
Proof.
  unfold handleIfMatch. destruct (Etag etagger) as [serverEtag err]. simpl.
  destruct (String.eqb_spec clientEtag "*") as [Hw|Hw];
    destruct (String.eqb_spec serverEtag clientEtag) as [Hs|Hs];
    destruct err as [[| | |msg]|]; simpl; split;
    try discriminate; try (intros _; tauto);
    intros [(He & Hc) | (He & Hc & Hd)]; try discriminate He;
    try reflexivity; try tauto.
Qed.

(** X11: [handleIfNoneMatch] is true in exactly two situations: [Etag]
    succeeded and the client's value differs from the etag as a string; or
    [Etag] signalled [ErrNoResource] and the client sent "*". *)
Theorem handleIfNoneMatch_true_iff (etagger : Etagger) (clientEtag : string) :
  handleIfNoneMatch etagger clientEtag = true <->
  (snd (Etag etagger) = None /\ clientEtag <> fst (Etag etagger)) \/
  (snd (Etag etagger) = Some ErrNoResource /\ clientEtag = "*").
Proof.
  unfold handleIfNoneMatch. destruct (Etag etagger) as [serverEtag err]. simpl.
  destruct (String.eqb_spec clientEtag "*") as [Hw|Hw];
    destruct (String.eqb_spec clientEtag serverEtag) as [Hs|Hs];
    destruct err as [[| | |msg]|]; simpl; split;
    try discriminate; try (intros _; tauto);
    intros [(He & Hc) | (He & Hc)]; try discriminate He;
    try reflexivity; try tauto.
Qed.

(** X12: the two etag predicates mirror each other when [Etag] succeeded
    and the client's value is not "*", and when [Etag] signalled
    [ErrNoResource] and the client sent "*": one is the negation of the
    other. *)
Theorem if_match_if_none_match_mirror
    (etagger : Etagger) (serverEtag clientEtag : string) (err : option error) :
  Etag etagger = (serverEtag, err) ->
  (err = None /\ clientEtag <> "*") \/ (err = Some ErrNoResource /\ clientEtag = "*") ->
  handleIfNoneMatch etagger clientEtag = negb (handleIfMatch etagger clientEtag).
Proof.
  intros HT H. unfold handleIfNoneMatch, handleIfMatch. rewrite HT.
  destruct H as [[-> Hw] | [-> ->]]; [|reflexivity].
  apply String.eqb_neq in Hw. rewrite Hw. simpl.
  rewrite (String.eqb_sym clientEtag serverEtag).
  destruct (String.eqb serverEtag clientEtag); reflexivity.
Qed.

Lemma if_match_if_none_match_mirror_witness :
  handleIfNoneMatch (mkEtagger ("abc", None)) "abc" = false /\
  handleIfMatch (mkEtagger ("abc", None)) "abc" = true /\
  handleIfNoneMatch (mkEtagger ("", Some ErrNoResource)) "*"
    = negb (handleIfMatch (mkEtagger ("", Some ErrNoResource)) "*").
Proof.
  split; [reflexivity | split; [reflexivity|]].
  apply (if_match_if_none_match_mirror (mkEtagger ("", Some ErrNoResource)) "" "*"
           (Some ErrNoResource) eq_refl).
  right. split; reflexivity.
Defined.

(** X13: when [Etag] fails with an error other than [ErrNoResource], every
    request with a non-empty If-Match header is rejected with
    [ErrWasModified], whatever the header says. *)
Theorem etag_failure_rejects_if_match
    (time_Parse : Parser) (now : time.Time) (c : gin.Context) (resource : Resource)
    (etagger : Etagger) (serverEtag : string) (err : error) :
  asEtagger resource = Some etagger ->
  Etag etagger = (serverEtag, Some err) ->
  err <> ErrNoResource ->
  header c IfMatch <> "" ->
  Conditional time_Parse now c resource = Reject ErrWasModified c.
Proof.
  intros HE HT Herr Hh.
  assert (P : handleIfMatch etagger (header c IfMatch) = false).
  { unfold handleIfMatch. rewrite HT.
    destruct err; try reflexivity. now contradiction Herr. }
  unfold Conditional, Conditional_match.
  rewrite HE. simpl. apply String.eqb_neq in Hh. rewrite Hh, P. reflexivity.
Qed.

Lemma etag_failure_rejects_if_match_witness :
  let c := request "PUT" [("If-Match", "*")] in
  let etagger := mkEtagger ("abc", Some (ErrOther "i/o timeout")) in
  let resource := mkResource (Some etagger) None in
  header c IfMatch <> "" /\
  Conditional sample_Parse sample_now c resource = Reject ErrWasModified c.
Proof.
  intros c etagger resource.
  assert (Hh : header c IfMatch <> "") by (vm_compute; discriminate).
  split; [exact Hh|].
  apply (etag_failure_rejects_if_match sample_Parse sample_now c resource etagger "abc"
           (ErrOther "i/o timeout") eq_refl eq_refl); [discriminate | exact Hh].
Defined.

(** X14: when [Etag] fails and the case is not [ErrNoResource] with "*", a
    request with a non-empty If-None-Match header that gets past the first
    chain is short-circuited: 304 for GET and HEAD, 412 for other methods.
    A failed etag lookup is answered like a match. *)
Theorem etag_failure_short_circuits_if_none_match
    (time_Parse : Parser) (now : time.Time) (c : gin.Context) (resource : Resource)
    (etagger : Etagger) (serverEtag : string) (err : error) :
  Conditional_match time_Parse c resource = None ->
  asEtagger resource = Some etagger ->
  Etag etagger = (serverEtag, Some err) ->
  header c IfNoneMatch <> "" ->
  err <> ErrNoResource \/ header c IfNoneMatch <> "*" ->
  Conditional time_Parse now c resource
    = ShortCircuit (if String.eqb (method c) Get || String.eqb (method c) Head
                    then http.StatusNotModified else http.StatusPreconditionFailed) c.
Proof.
  intros HA HE HT Hh Hcase.
  assert (P : handleIfNoneMatch etagger (header c IfNoneMatch) = false).
  { unfold handleIfNoneMatch. rewrite HT.
    destruct Hcase as [Herr | Hw].
    - destruct err; try (now contradiction Herr);
        destruct (String.eqb (header c IfNoneMatch) "*"); reflexivity.
    - apply String.eqb_neq in Hw. rewrite Hw. reflexivity. }
  unfold Conditional, Conditional_none_match.
  rewrite HA, HE. simpl. apply String.eqb_neq in Hh. rewrite Hh, P. simpl.
  destruct (String.eqb (method c) Get || String.eqb (method c) Head); reflexivity.
Qed.

Lemma etag_failure_short_circuits_if_none_match_witness :
  let c := request "GET" [("If-None-Match", "abc")] in
  let etagger := mkEtagger ("", Some (ErrOther "i/o timeout")) in
  let resource := mkResource (Some etagger) None in
  Conditional_match sample_Parse c resource = None /\
  header c IfNoneMatch <> "" /\
  Conditional sample_Parse sample_now c resource = ShortCircuit 304 c.
Proof.
  intros c etagger resource.
  assert (HA : Conditional_match sample_Parse c resource = None)
    by (vm_compute; reflexivity).
  assert (Hh : header c IfNoneMatch <> "") by (vm_compute; discriminate).
  split; [exact HA | split; [exact Hh|]].
  apply (etag_failure_short_circuits_if_none_match sample_Parse sample_now c resource
           etagger "" (ErrOther "i/o timeout") HA eq_refl eq_refl Hh).
  left. discriminate.
Defined.

(** X15: when [Etag] signals [ErrNoResource] and If-None-Match is "*", the
    second chain falls through; a request that got past the first chain is
    then rejected with [ErrRangeMismatch] if it is a GET with Range and
    If-Range, and continues otherwise. *)
Theorem if_none_match_wildcard_no_resource
    (time_Parse : Parser) (now : time.Time) (c : gin.Context) (resource : Resource)
    (etagger : Etagger) (serverEtag : string) :
  Conditional_match time_Parse c resource = None ->
  asEtagger resource = Some etagger ->
  Etag etagger = (serverEtag, Some ErrNoResource) ->
  header c IfNoneMatch = "*" ->
  handleIfNoneMatch etagger "*" = true /\
  Conditional time_Parse now c resource
    = if String.eqb (method c) Get
         && negb (String.eqb (header c Range) "")
         && negb (String.eqb (header c IfRange) "")
      then Reject ErrRangeMismatch c
      else Continue c.
Proof.
  intros HA HE HT Hh.
  assert (P : handleIfNoneMatch etagger "*" = true).
  { unfold handleIfNoneMatch. rewrite HT. reflexivity. }
  split; [exact P|].
  unfold Conditional, Conditional_none_match, Conditional_range, handleIfRange.
  rewrite HA, HE, Hh. simpl. rewrite P. simpl.
  destruct (_ && _); reflexivity.
Qed.

Lemma if_none_match_wildcard_no_resource_witness :
  let c := request "PUT" [("If-None-Match", "*")] in
  let etagger := mkEtagger ("", Some ErrNoResource) in
  let resource := mkResource (Some etagger) None in
  Conditional_match sample_Parse c resource = None /\
  header c IfNoneMatch = "*" /\
  Conditional sample_Parse sample_now c resource = Continue c.
Proof.
  intros c etagger resource.
  assert (HA : Conditional_match sample_Parse c resource = None)
    by (vm_compute; reflexivity).
  assert (Hh : header c IfNoneMatch = "*") by (vm_compute; reflexivity).
  split; [exact HA | split; [exact Hh|]].
  exact (proj2 (if_none_match_wildcard_no_resource sample_Parse sample_now c resource
                  etagger "" HA eq_refl eq_refl Hh)).
Defined.

(** X16: for a resource whose [Etag] succeeds with the tag [E], a
    non-empty If-Match header passes the first chain when it is "*" or
    equal to [E]; any other value is rejected with [ErrWasModified]. *)
Theorem if_match_existing_entity
    (time_Parse : Parser) (now : time.Time) (c : gin.Context) (resource : Resource)
    (etagger : Etagger) (E : string) :
  asEtagger resource = Some etagger ->
  Etag etagger = (E, None) ->
  header c IfMatch <> "" ->
  (header c IfMatch = "*" \/ header c IfMatch = E ->
     Conditional_match time_Parse c resource = None) /\
  (header c IfMatch <> "*" -> header c IfMatch <> E ->
     Conditional time_Parse now c resource = Reject ErrWasModified c).
Proof.
  intros HE HT Hh.
  assert (P : handleIfMatch etagger (header c IfMatch)
              = String.eqb E (header c IfMatch) || String.eqb (header c IfMatch) "*").
  { unfold handleIfMatch. rewrite HT.
    destruct (String.eqb (header c IfMatch) "*"), (String.eqb E (header c IfMatch));
      reflexivity. }
  apply String.eqb_neq in Hh.
  split.
  - intros Hok. unfold Conditional_match. rewrite HE. simpl. rewrite Hh, P.
    destruct Hok as [-> | ->].
    + now rewrite orb_true_r.
    + now rewrite String.eqb_refl.
  - intros Hw Hd. unfold Conditional, Conditional_match. rewrite HE. simpl. rewrite Hh, P.
    apply String.eqb_neq in Hw. rewrite Hw.
    assert (Hd' : String.eqb E (header c IfMatch) = false)
      by (apply String.eqb_neq; congruence).
    rewrite Hd'. reflexivity.
Qed.

Lemma if_match_existing_entity_witness :
  let c := request "DELETE" [("If-Match", "xyz")] in
  let etagger := mkEtagger ("abc", None) in
  let resource := mkResource (Some etagger) None in
  header c IfMatch <> "" /\
  Conditional sample_Parse sample_now c resource = Reject ErrWasModified c.
Proof.
  intros c etagger resource.
  assert (Hh : header c IfMatch <> "") by (vm_compute; discriminate).
  split; [exact Hh|].
  apply (proj2 (if_match_existing_entity sample_Parse sample_now c resource etagger "abc"
                  eq_refl eq_refl Hh)); vm_compute; discriminate.
Defined.

(** ** The date predicates *)

(** X17: [handleIfModifiedSince] is true exactly when the date parses, is
    not after the evaluation instant, and the resource was not modified
    after it. *)
Theorem handleIfModifiedSince_true_iff
    (time_Parse : Parser) (now : time.Time) (modifier : LastModifier) (date : string) :
  handleIfModifiedSince time_Parse now modifier date = true <->
  exists clientDate,
    time_Parse http.TimeFormat date = Some clientDate /\
    clientDate <= now /\ LastModified modifier <= clientDate.
Proof.
  unfold handleIfModifiedSince, time.After, time.Before.
  destruct (time_Parse http.TimeFormat date) as [clientDate|].
  - destruct (Z.ltb_spec now clientDate) as [H1|H1];
      destruct (Z.ltb_spec clientDate (LastModified modifier)) as [H2|H2]; simpl; split;
      try discriminate;
      try (intros (t & [= <-] & Ha & Hb); lia).
    intros _. exists clientDate. auto.
  - split; [discriminate | intros (t & H & _); discriminate H].
Qed.

(** X18: on a date that parses and is not after the evaluation instant,
    the two date predicates return opposite values. *)
Theorem since_handlers_opposite
    (time_Parse : Parser) (now : time.Time) (modifier : LastModifier) (date : string)
    (clientDate : time.Time) :
  time_Parse http.TimeFormat date = Some clientDate ->
  clientDate <= now ->
  handleIfModifiedSince time_Parse now modifier date
    = negb (handleIfUnmodifiedSince time_Parse modifier date).
Proof.
  intros HP Hle.
  unfold handleIfModifiedSince, handleIfUnmodifiedSince, time.After, time.Before.
  rewrite HP. apply Z.ltb_ge in Hle. rewrite Hle. simpl.
  destruct (Z.ltb clientDate (LastModified modifier)); reflexivity.
Qed.

Lemma since_handlers_opposite_witness :
  sample_Parse http.TimeFormat "Sun, 06 Nov 1994 08:49:37 GMT" = Some nov6 /\
  nov6 <= sample_now /\
  handleIfUnmodifiedSince sample_Parse (mkLastModifier nov7)
    "Sun, 06 Nov 1994 08:49:37 GMT" = true /\
  handleIfModifiedSince sample_Parse sample_now (mkLastModifier nov7)
    "Sun, 06 Nov 1994 08:49:37 GMT" = false.
Proof.
  assert (HP : sample_Parse http.TimeFormat "Sun, 06 Nov 1994 08:49:37 GMT" = Some nov6)
    by (vm_compute; reflexivity).
  assert (Hle : nov6 <= sample_now) by (unfold nov6, sample_now; lia).
  split; [exact HP | split; [exact Hle | split; [vm_compute; reflexivity|]]].
  rewrite (since_handlers_opposite sample_Parse sample_now (mkLastModifier nov7) _ nov6
             HP Hle).
  vm_compute. reflexivity.
Defined.
